(** * KnapsackTree benchmarking harness: the table parser and the exporters

    A shallow embedding of [knaps_helper.py]: the text-table parser
    [parse_data] and the two exporters [save_json] and [save_xlsx], with the
    Python string primitives they call.

    Python [str] values are represented by Rocq strings holding their UTF-8
    bytes.  The separators, the header marker and the row-label prefix of the
    program are ASCII, and an ASCII byte never occurs inside a multi-byte
    UTF-8 sequence, so searching, splitting and replacing on bytes agrees
    with Python's behaviour on code points. *)

From Stdlib Require Import Ascii String NArith Lia.
From stdpp Require Import base list strings gmap pretty.


(** ** Python string primitives *)

Module Py.

(** [sub in s] for strings. *)
Fixpoint contains (sub s : string) : bool :=
  String.prefix sub s ||
  match s with
  | EmptyString => false
  | String _ s' => contains sub s'
  end.

(** [s.replace(old, new)] for a non-empty [old]: a single left-to-right
    pass over non-overlapping occurrences.  [skip] counts the characters of
    an occurrence that are still to be passed over. *)
Fixpoint replace_from (old new : string) (skip : nat) (s : string) : string :=
  match s with
  | EmptyString => EmptyString
  | String c s' =>
      match skip with
      | S k => replace_from old new k s'
      | O =>
          if String.prefix old s
          then new +:+ replace_from old new (String.length old - 1) s'
          else String c (replace_from old new 0 s')
      end
  end.

Definition replace (old new s : string) : string := replace_from old new 0 s.

(** Puts a character in front of the first piece of a split.  A split is
    never empty, so the second case is not reached. *)
Definition push_char (c : ascii) (pieces : list string) : list string :=
  match pieces with
  | p :: ps => String c p :: ps
  | [] => [String c EmptyString]
  end.

(** [s.split(sep)] for a non-empty [sep]; the result always has at least
    one piece. *)
Fixpoint split_from (sep : string) (skip : nat) (s : string) : list string :=
  match s with
  | EmptyString => [EmptyString]
  | String c s' =>
      match skip with
      | S k => split_from sep k s'
      | O =>
          if String.prefix sep s
          then EmptyString :: split_from sep (String.length sep - 1) s'
          else push_char c (split_from sep 0 s')
      end
  end.

Definition split (sep s : string) : list string := split_from sep 0 s.

(** [sep.join(pieces)]. *)
Fixpoint join (sep : string) (pieces : list string) : string :=
  match pieces with
  | [] => EmptyString
  | [p] => p
  | p :: ps => p +:+ sep +:+ join sep ps
  end.

(** [l[:-1]]. *)
Definition drop_last {A} (l : list A) : list A := removelast l.





(** [str(n)] for a natural number: its decimal digits. *)
Definition str (n : nat) : string := pretty n.

(** [chr(n)]: the one-character string of code point [n], here its UTF-8
    bytes; a [ValueError] from [0x110000] on. *)
Definition byte (n : N) : ascii := ascii_of_N n.

Definition chr (n : N) : option string :=
  if (n <? 128)%N then
    Some (String (byte n) EmptyString)
  else if (n <? 2048)%N then
    Some (String (byte (192 + n / 64))
         (String (byte (128 + n mod 64)) EmptyString))
  else if (n <? 65536)%N then
    Some (String (byte (224 + n / 4096))
         (String (byte (128 + (n / 64) mod 64))
         (String (byte (128 + n mod 64)) EmptyString)))
  else if (n <? 1114112)%N then
    Some (String (byte (240 + n / 262144))
         (String (byte (128 + (n / 4096) mod 64))
         (String (byte (128 + (n / 64) mod 64))
         (String (byte (128 + n mod 64)) EmptyString))))
  else None.


End Py.

(** ** The table parser *)

Definition newline : string := String (ascii_of_nat 10) EmptyString.

(** [line.split("|")[:-1]] with [" "] removed from every piece. *)
Definition fields (line : string) : list string :=
  Py.drop_last (Py.split "|" line).

Definition clean_fields (line : string) : list string :=
  map (Py.replace " " "") (fields line).

(** The local variables of [parse_data] that live across loop iterations. *)
Record parse_state := ParseState {
  skip : bool;
  headers : list string;
  parsed_data : list (list string)
}.

(** One iteration of the loop of [parse_data]. *)
Definition parse_line (st : parse_state) (line : string) : parse_state :=
  if Py.contains "ITER" line then
    let hs := clean_fields line in
    ParseState false hs (parsed_data st ++ [hs])
  else if skip st then st
  else
    let i_data := clean_fields line in
    match i_data with
    | [] => st
    | first :: _ =>
        let i_data := <[0 := Py.replace "I:" "" first]> i_data in
        ParseState (skip st) (headers st) (parsed_data st ++ [i_data])
    end.

Definition parse_init : parse_state := ParseState true [] [].

Definition parse_lines (st : parse_state) (d_lines : list string) : parse_state :=
  fold_left parse_line d_lines st.

Definition parse_data (data : string) : list (list string) :=
  parsed_data (parse_lines parse_init (Py.split newline data)).

(** ** The exporters *)

Definition table := list (list string).

(** The documents [json.dump] writes and [json.load] reads, as far as the
    exporter needs them: strings and arrays. *)
#[warnings="-register-all"]
Inductive json :=
  | JString (s : string)
  | JArray (items : list json).

Definition json_of_row (row : list string) : json := JArray (map JString row).
Definition json_of_table (t : table) : json := JArray (map json_of_row t).

Definition string_of_json (j : json) : option string :=
  match j with JString s => Some s | JArray _ => None end.

Definition row_of_json (j : json) : option (list string) :=
  match j with JArray cells => mapM string_of_json cells | JString _ => None end.

Definition table_of_json (j : json) : option table :=
  match j with JArray rows => mapM row_of_json rows | JString _ => None end.

(** A worksheet: the values stored under the cell addresses that were
    assigned to, [ws[key] = value] being an insertion.  The checks the
    spreadsheet library itself makes on an address or on a value are not
    part of this model; what is proved about cells concerns the columns A
    to Z, whose addresses are plain cell coordinates. *)
Abbreviation worksheet := (gmap string string).

Inductive file :=
  | EmptyFile
  | JsonFile (doc : json)
  | XlsxFile (ws : worksheet).

(** The part of the file system the exporters touch. *)
Record filesystem := FileSystem {
  dirs : gset string;
  files : gmap string file
}.

Definition path_exists (p : string) (fs : filesystem) : bool :=
  bool_decide (p ∈ dirs fs) || bool_decide (is_Some (files fs !! p)).

Definition makedirs (p : string) (fs : filesystem) : filesystem :=
  FileSystem ({[p]} ∪ dirs fs) (files fs).

Definition write_file (p : string) (f : file) (fs : filesystem) : filesystem :=
  FileSystem (dirs fs) (<[p := f]> (files fs)).

Definition ensure_dir (p : string) (fs : filesystem) : filesystem :=
  if path_exists p fs then fs else makedirs p fs.

Definition json_load (p : string) (fs : filesystem) : option table :=
  match files fs !! p with
  | Some (JsonFile doc) => table_of_json doc
  | _ => None
  end.

Inductive exception := NameError | ValueError.

(** How a call ends: normally, or by raising. *)
Inductive outcome :=
  | Returned
  | Raised (e : exception).

(** [save_json].  Its body reads the module-level name [parsed_data];
    [global_parsed_data] is the binding of that name when the call is made,
    [None] while the name is unbound.  The file is opened with mode ["w+"],
    which creates or truncates it, before the name is looked up. *)
Definition save_json (global_parsed_data : option table)
    (result_folder : string) (data : table) (filename : string)
    (fs : filesystem) : filesystem * outcome :=
  let result_folder := result_folder +:+ "/json/" in
  let fs := ensure_dir result_folder fs in
  let outfile := result_folder +:+ filename +:+ ".json" in
  let fs := write_file outfile EmptyFile fs in
  match global_parsed_data with
  | None => (fs, Raised NameError)
  | Some parsed_data =>
      (write_file outfile (JsonFile (json_of_table parsed_data)) fs, Returned)
  end.

(** The key of [ws[f'{chr(j+65)}{i+1}']]. *)
Definition cell_key (i j : nat) : option string :=
  c ← Py.chr (N.of_nat j + 65);
  Some (c +:+ Py.str (i + 1)).

(** The inner loop of [save_xlsx], from column [j] on. *)
Fixpoint write_row (i j : nat) (idata : list string) (ws : worksheet)
    : option worksheet :=
  match idata with
  | [] => Some ws
  | jdata :: rest =>
      key ← cell_key i j;
      write_row i (S j) rest (<[key := jdata]> ws)
  end.

(** The outer loop of [save_xlsx], from row [i] on. *)
Fixpoint write_rows (i : nat) (data : table) (ws : worksheet)
    : option worksheet :=
  match data with
  | [] => Some ws
  | idata :: rest =>
      ws ← write_row i 0 idata ws;
      write_rows (S i) rest ws
  end.

(** [save_xlsx]: the workbook reaches the disk only when both loops have
    run to their end. *)
Definition save_xlsx (result_folder : string) (data : table)
    (filename : string) (fs : filesystem) : filesystem * outcome :=
  let result_folder := result_folder +:+ "/xlsx/" in
  let fs := ensure_dir result_folder fs in
  match write_rows 0 data ∅ with
  | None => (fs, Raised ValueError)
  | Some ws =>
      (write_file (result_folder +:+ filename +:+ ".xlsx") (XlsxFile ws) fs,
       Returned)
  end.

(** The cell of a saved workbook. *)
Definition xlsx_cell (p : string) (address : string) (fs : filesystem)
    : option string :=
  match files fs !! p with
  | Some (XlsxFile ws) => ws !! address
  | _ => None
  end.

Definition empty_fs : filesystem := FileSystem ∅ ∅.

(** ** The sweep of the script

    The body under [if __name__ == "__main__"].  What lies outside the
    program is taken as given: [program] is the standard output of the
    shell command that [run_command] runs, and [elapsed] is the text of
    [t1 - t0] in the step of a relative weight. *)

Module Main.

Definition n : nat := 25.
Definition iterCount : nat := 100.
Definition m : nat := 128.
Definition result_folder : string := "./temp_result_data".
Definition stage : nat := 3.

(** The state the script works on: the result files, the scratch file
    [temp.pipefile], the module-level name [parsed_data], what was written
    to [log_file], and what was printed. *)
Record state := State {
  fs : filesystem;
  pipefile : option string;
  global_parsed_data : option table;
  log : list string;
  stdout : list string
}.


Definition command (relWeight : nat) : string :=
  let processorCount := 1 in
  "./KnapsackTree -n " +:+ Py.str n +:+ " -i " +:+ Py.str iterCount +:+
  " -p " +:+ Py.str processorCount +:+ " -m " +:+ Py.str m +:+
  " -r " +:+ Py.str relWeight +:+ " -o".

Definition filename (relWeight : nat) : string :=
  "result-" +:+ Py.str stage +:+ "-" +:+ Py.str relWeight +:+ "-1core".

Definition finished (elapsedTime : string) : string :=
  "Stage " +:+ Py.str stage +:+ " Finished! Elapsed: " +:+ elapsedTime +:+
  " s!".

Section Sweep.
Variable program : string → string.
Variable elapsed : nat → string.

(** [run_command]: the output of the command goes through the scratch
    file, which is read back and left in place. *)
Definition run_command (cmd : string) (st : state) : state * string :=
  let data := program cmd in
  (State (fs st) (Some data) (global_parsed_data st) (log st) (stdout st),
   data).

Definition print (line : string) (st : state) : state :=
  State (fs st) (pipefile st) (global_parsed_data st) (log st)
    (stdout st ++ [line]).

(** One turn of the loop.  An exception of an exporter ends the script. *)
Definition step (relWeight : nat) (st : state) : state * outcome :=
  let cmd := command relWeight in
  let st := print ("Executing: " +:+ cmd) st in
  let '(st, data) := run_command cmd st in
  let st := print data st in
  let parsed := parse_data data in
  let st := State (fs st) (pipefile st) (Some parsed) (log st) (stdout st) in
  let name := filename relWeight in
  let '(fs1, o1) :=
    save_json (global_parsed_data st) result_folder parsed name (fs st) in
  let st := State fs1 (pipefile st) (global_parsed_data st) (log st)
              (stdout st) in
  match o1 with
  | Raised e => (st, Raised e)
  | Returned =>
      let '(fs2, o2) := save_xlsx result_folder parsed name (fs st) in
      let st := State fs2 (pipefile st) (global_parsed_data st) (log st)
                  (stdout st) in
      match o2 with
      | Raised e => (st, Raised e)
      | Returned =>
          let line := finished (elapsed relWeight) in
          let st := print line st in
          (State (fs st) (pipefile st) (global_parsed_data st)
             (log st ++ [line +:+ newline]) (stdout st),
           Returned)
      end
  end.

Fixpoint loop (relWeights : list nat) (st : state) : state * outcome :=
  match relWeights with
  | [] => (st, Returned)
  | relWeight :: rest =>
      match step relWeight st with
      | (st, Returned) => loop rest st
      | (st, Raised e) => (st, Raised e)
      end
  end.


End Sweep.



End Main.

(** ** Reading the claims

    The definitions below follow the words of the specification; the
    theorems compare them with the code above. *)

(** A string with every occurrence of one character taken out. *)
Fixpoint remove_char (c : ascii) (s : string) : string :=
  match s with
  | EmptyString => EmptyString
  | String a s' =>
      if Ascii.eqb a c then remove_char c s' else String a (remove_char c s')
  end.

Fixpoint count_char (c : ascii) (s : string) : nat :=
  match s with
  | EmptyString => 0
  | String a s' => (if Ascii.eqb a c then 1 else 0) + count_char c s'
  end.

Definition space : ascii := " "%char.

Fixpoint drop_chars (n : nat) (s : string) : string :=
  match n, s with
  | S k, String _ s' => drop_chars k s'
  | _, _ => s
  end.

(** Taking a literal prefix off a string that starts with it. *)
Definition removeprefix (p s : string) : string :=
  if String.prefix p s then drop_chars (String.length p) s else s.

Definition is_header_line (line : string) : bool := Py.contains "ITER" line.

(** A line carries the trailing delimiter of the table format. *)
Definition well_formed_line (line : string) : Prop :=
  ∃ body, line = body +:+ "|".

Definition single_line (line : string) : Prop :=
  Py.contains newline line = false.

(** The row of a header line: its fields without their spaces. *)
Definition header_row (line : string) : list string :=
  map (remove_char space) (fields line).

(** The row of a data line: as for a header line, and the first field
    goes through [replace("I:", "")]. *)
Definition data_row (line : string) : list string :=
  match header_row line with
  | [] => []
  | first :: rest => Py.replace "I:" "" first :: rest
  end.

(** The rows one line contributes once the header has been seen. *)
Definition line_rows (line : string) : list (list string) :=
  if is_header_line line then [header_row line]
  else match fields line with
       | [] => []
       | _ :: _ => [data_row line]
       end.

(** The lines from the first header line on. *)
Fixpoint drop_preamble (d_lines : list string) : list string :=
  match d_lines with
  | [] => []
  | line :: rest =>
      if is_header_line line then d_lines else drop_preamble rest
  end.

(** The rows the parser has collected after a prefix of the lines. *)
Definition rows_so_far (d_lines : list string) : list (list string) :=
  parsed_data (parse_lines parse_init d_lines).



Definition example_text : string :=
  "X | ITER | VAL |" +:+ newline +:+ "I:0 | 1 | 10 |" +:+ newline +:+
  "I:1 | 2 | 20 |" +:+ newline.

(** No line of the text contains the header marker. *)
Definition no_marker (data : string) : Prop :=
  Forall (λ line, is_header_line line = false) (Py.split newline data).

(** The reading of "a line with zero fields after the header is skipped"
    that does not look at what else the line contains. *)
Definition skips_every_zero_field_line (data : string) : Prop :=
  ∀ pre z post,
    Py.split newline data = pre ++ z :: post →
    existsb is_header_line pre = true →
    fields z = [] →
    parse_data data = rows_so_far (pre ++ post).




(** The position of a data line: after a header line, without the marker. *)
Definition data_line_at (data : string) (pre : list string) (line : string)
    (post : list string) : Prop :=
  Py.split newline data = pre ++ line :: post ∧
  existsb is_header_line pre = true ∧
  is_header_line line = false.


(** The reading of "the prefix is stripped from the first field": the first
    field loses a leading ["I:"] and is otherwise left alone. *)
Definition strips_label_prefix (data : string) : Prop :=
  ∀ pre line post first rest,
    data_line_at data pre line post →
    fields line = first :: rest →
    parse_data data =
      rows_so_far pre ++
      (removeprefix "I:" (remove_char space first)
         :: map (remove_char space) rest)
      :: flat_map line_rows post.

(** * Properties *)

(** ** The string primitives on a one-character pattern *)

Section OneCharacter.
Variable c : ascii.
Let pat : string := String c EmptyString.

Lemma prefix_empty s : String.prefix EmptyString s = true.
Proof. by destruct s. Qed.

Lemma prefix_one_char a s :
  String.prefix pat (String a s) = Ascii.eqb a c.
Proof.
  subst pat. simpl. destruct (ascii_dec c a) as [->|Hne].
  - by rewrite prefix_empty, Ascii.eqb_refl.
  - symmetry. apply Ascii.eqb_neq. congruence.
Qed.

Lemma replace_one_char s : Py.replace pat EmptyString s = remove_char c s.
Proof.
  unfold Py.replace. induction s as [|a s IH]; [done|].
  cbn [Py.replace_from remove_char]. rewrite prefix_one_char.
  subst pat. cbn [String.length Nat.sub]. rewrite IH.
  by destruct (Ascii.eqb a c).
Qed.

Lemma split_one_char a s :
  Py.split pat (String a s) =
  if Ascii.eqb a c then EmptyString :: Py.split pat s
  else Py.push_char a (Py.split pat s).
Proof.
  unfold Py.split. cbn [Py.split_from]. rewrite prefix_one_char.
  by subst pat.
Qed.
End OneCharacter.

Lemma split_from_nonempty sep k s : Py.split_from sep k s ≠ [].
Proof.
  revert k. induction s as [|a s IH]; intros k; [done|].
  cbn [Py.split_from]. destruct k; [|apply IH].
  destruct (String.prefix sep (String a s)); [done|].
  specialize (IH 0). by destruct (Py.split_from sep 0 s).
Qed.

Lemma split_nonempty sep s : Py.split sep s ≠ [].
Proof. apply split_from_nonempty. Qed.

(** ** The loop of [parse_data], line by line *)

Lemma clean_fields_header_row line : clean_fields line = header_row line.
Proof.
  unfold clean_fields, header_row. apply map_ext. intros s.
  apply (replace_one_char space).
Qed.

Lemma header_row_length line : length (header_row line) = length (fields line).
Proof. unfold header_row. apply length_map. Qed.

Lemma data_row_length line : length (data_row line) = length (fields line).
Proof.
  unfold data_row. rewrite <- header_row_length.
  by destruct (header_row line).
Qed.

Lemma header_row_nil line : header_row line = [] ↔ fields line = [].
Proof.
  unfold header_row. by destruct (fields line).
Qed.

Lemma parse_line_active st line :
  skip st = false →
  skip (parse_line st line) = false ∧
  parsed_data (parse_line st line) = parsed_data st ++ line_rows line.
Proof.
  intros Hskip. unfold parse_line, line_rows, is_header_line.
  cbv zeta. rewrite clean_fields_header_row.
  destruct (Py.contains "ITER" line); [done|]. rewrite Hskip.
  unfold data_row, header_row.
  destruct (fields line) as [|f fs]; cbn.
  - by rewrite app_nil_r.
  - done.
Qed.

Lemma parse_lines_app st l1 l2 :
  parse_lines st (l1 ++ l2) = parse_lines (parse_lines st l1) l2.
Proof. apply fold_left_app. Qed.

Lemma parse_lines_active st d_lines :
  skip st = false →
  skip (parse_lines st d_lines) = false ∧
  parsed_data (parse_lines st d_lines) =
    parsed_data st ++ flat_map line_rows d_lines.
Proof.
  revert st. induction d_lines as [|line rest IH]; intros st Hskip.
  - by rewrite app_nil_r.
  - destruct (parse_line_active st line Hskip) as [Hs Hp].
    destruct (IH _ Hs) as [Hs' Hp']. split; [done|].
    cbn [parse_lines fold_left flat_map] in *. unfold parse_lines in Hp'.
    by rewrite Hp', Hp, <- app_assoc.
Qed.

Lemma parse_line_header st line :
  is_header_line line = true →
  skip (parse_line st line) = false ∧
  parsed_data (parse_line st line) = parsed_data st ++ [header_row line].
Proof.
  unfold is_header_line, parse_line. intros ->.
  cbv zeta. by rewrite clean_fields_header_row.
Qed.

Lemma parse_line_preamble st line :
  skip st = true → is_header_line line = false → parse_line st line = st.
Proof.
  unfold is_header_line, parse_line. by intros -> ->.
Qed.

Lemma parse_lines_skipping st d_lines :
  skip st = true →
  parsed_data (parse_lines st d_lines) =
    parsed_data st ++ flat_map line_rows (drop_preamble d_lines).
Proof.
  revert st. induction d_lines as [|line rest IH]; intros st Hskip.
  - by rewrite app_nil_r.
  - cbn [drop_preamble]. destruct (is_header_line line) eqn:Hh.
    + destruct (parse_line_header st line Hh) as [Hs Hp].
      destruct (parse_lines_active _ rest Hs) as [_ Hr].
      cbn [parse_lines fold_left flat_map] in *. unfold parse_lines in Hr.
      rewrite Hr, Hp, <- app_assoc. unfold line_rows. by rewrite Hh.
    + cbn [parse_lines fold_left]. rewrite parse_line_preamble by done.
      by apply IH.
Qed.

Lemma rows_so_far_eq d_lines :
  rows_so_far d_lines = flat_map line_rows (drop_preamble d_lines).
Proof. unfold rows_so_far. by rewrite parse_lines_skipping. Qed.

Lemma parse_data_rows data :
  parse_data data = flat_map line_rows (drop_preamble (Py.split newline data)).
Proof. apply rows_so_far_eq. Qed.

Lemma parse_line_zero_fields st z :
  is_header_line z = false → fields z = [] → parse_line st z = st.
Proof.
  unfold is_header_line, parse_line, clean_fields. intros -> ->.
  by destruct (skip st).
Qed.

Lemma in_drop_preamble line d_lines :
  In line (drop_preamble d_lines) → In line d_lines.
Proof.
  induction d_lines as [|l rest IH]; [done|]. cbn [drop_preamble].
  destruct (is_header_line l); [done|]. intros H. right. by apply IH.
Qed.

Lemma drop_preamble_no_header d_lines :
  Forall (λ line, is_header_line line = false) d_lines →
  drop_preamble d_lines = [].
Proof.
  induction 1 as [|l rest Hl _ IH]; [done|].
  cbn [drop_preamble]. by rewrite Hl.
Qed.

Lemma line_rows_origin line row :
  In row (line_rows line) →
  (is_header_line line = true ∧ row = header_row line) ∨
  (is_header_line line = false ∧ fields line ≠ [] ∧ row = data_row line).
Proof.
  unfold line_rows. destruct (is_header_line line).
  - intros [<-|[]]. by left.
  - destruct (fields line) eqn:Hf; [intros []|].
    intros [<-|[]]. by right.
Qed.

Lemma parse_data_row_origin data row :
  In row (parse_data data) →
  ∃ line, In line (Py.split newline data) ∧ In row (line_rows line).
Proof.
  rewrite parse_data_rows. intros (line & Hin & Hrow)%in_flat_map.
  exists line. split; [by apply in_drop_preamble|done].
Qed.

(** ** The end-to-end example *)

(** C2, as the code has it: the example text parses to the rows
    [["X","ITER","VAL"], ["0","1","10"], ["1","2","20"]]; the header row
    holds every field of the line that contains the marker, the leading
    ["X"] included. *)
Theorem parse_data_example :
  parse_data example_text =
    [["X"; "ITER"; "VAL"]; ["0"; "1"; "10"]; ["1"; "2"; "20"]] ∧
  head (parse_data example_text) = Some (header_row "X | ITER | VAL |").
Proof. split; reflexivity. Qed.

(** C2, as the specification states it, fails: the header row of the example
    is not [["ITER","VAL"]]. *)
Lemma example_header_not_two_fields :
  parse_data example_text ≠
    [["ITER"; "VAL"]; ["0"; "1"; "10"]; ["1"; "2"; "20"]].
Proof. discriminate. Qed.

(** ** A text without the marker *)

(** C3, as the code has it: when no line contains the marker ["ITER"],
    [parse_data] returns the empty sequence: no header row is appended. *)
Theorem parse_data_no_marker data :
  no_marker data → parse_data data = [].
Proof.
  intros H. rewrite parse_data_rows.
  by rewrite (drop_preamble_no_header _ H).
Qed.

Lemma parse_data_no_marker_witness :
  parse_data ("a | b |" +:+ newline +:+ "I:0 | 1 |" +:+ newline) = [].
Proof.
  apply parse_data_no_marker. unfold no_marker. vm_compute.
  repeat constructor.
Defined.

(** C3, as the specification states it, fails: a text without the marker
    does not parse to the one-element sequence holding an empty header. *)
Lemma no_marker_not_singleton :
  ¬ (no_marker "a | b |" → parse_data "a | b |" = [[]]).
Proof.
  intros H. discriminate H. unfold no_marker. vm_compute. repeat constructor.
Qed.

(** ** Lines without fields *)

(** C8, as the code has it: a line that does not contain the marker and has
    zero fields contributes no row, wherever it stands; and an empty row in
    the output always comes from a line that contains the marker and has
    zero fields. *)
Theorem zero_field_lines_skipped data pre z post :
  Py.split newline data = pre ++ z :: post →
  is_header_line z = false →
  fields z = [] →
  parse_data data = rows_so_far (pre ++ post) ∧
  (In [] (parse_data data) →
   ∃ line, In line (Py.split newline data) ∧
           is_header_line line = true ∧ fields line = []).
Proof.
  intros Hsplit Hz Hf. split.
  - unfold parse_data, rows_so_far. rewrite Hsplit, !parse_lines_app.
    cbn [parse_lines fold_left]. by rewrite parse_line_zero_fields.
  - intros (line & Hin & Hrow)%parse_data_row_origin.
    exists line. split; [done|].
    destruct (line_rows_origin _ _ Hrow) as [[Hh Hr]|(_ & Hne & Hr)].
    + split; [done|]. by apply header_row_nil.
    + exfalso. apply Hne. apply length_zero_iff_nil.
      by rewrite <- data_row_length, <- Hr.
Qed.

Lemma zero_field_lines_skipped_witness :
  parse_data ("ITER | V |" +:+ newline +:+ newline +:+ "I:0 | 1 |") =
    rows_so_far ["ITER | V |"; "I:0 | 1 |"].
Proof.
  apply (zero_field_lines_skipped _ ["ITER | V |"] "" ["I:0 | 1 |"]);
    reflexivity.
Defined.

(** C8, as the specification states it, fails: a line after the header that
    has zero fields and contains the marker is kept, as an empty row. *)
Lemma zero_field_marker_line_kept :
  ¬ skips_every_zero_field_line ("ITER |" +:+ newline +:+ "ITER").
Proof.
  intros H.
  specialize (H ["ITER |"] "ITER" [] eq_refl eq_refl eq_refl).
  discriminate H.
Qed.

(** ** Every line with the marker *)

(** C9: every line that contains the marker, the first or a later one, adds
    one row at its place in the input order: its fields (split on ["|"],
    last segment dropped) with the space characters removed, and nothing
    else done to them; the rows of the lines after it follow. *)
Theorem marker_lines_all_headers data pre line post :
  Py.split newline data = pre ++ line :: post →
  Py.contains "ITER" line = true →
  parse_data data =
    rows_so_far pre ++ map (remove_char space) (fields line)
      :: flat_map line_rows post.
Proof.
  intros Hsplit Hh. unfold parse_data, rows_so_far.
  rewrite Hsplit, parse_lines_app.
  destruct (parse_line_header (parse_lines parse_init pre) line Hh)
    as [Hs Hp].
  destruct (parse_lines_active _ post Hs) as [_ Hr].
  change (parse_lines ?st (line :: post))
    with (parse_lines (parse_line st line) post).
  by rewrite Hr, Hp, <- app_assoc.
Qed.

Lemma marker_lines_all_headers_witness :
  parse_data ("ITER | V |" +:+ newline +:+ "I:0 | 1 |" +:+ newline +:+
              "I: | ITER | I:2 |" +:+ newline +:+ "I:3 | 4 |") =
    [["ITER"; "V"]; ["0"; "1"]] ++ ["I:"; "ITER"; "I:2"] :: [["3"; "4"]].
Proof.
  apply (marker_lines_all_headers _ ["ITER | V |"; "I:0 | 1 |"]
           "I: | ITER | I:2 |" ["I:3 | 4 |"]); reflexivity.
Defined.

(** ** Counting characters through [replace] *)

Lemma append_cons x a b : String x a +:+ b = String x (a +:+ b).
Proof. reflexivity. Qed.

Lemma append_empty_l b : EmptyString +:+ b = b.
Proof. reflexivity. Qed.

Lemma count_char_app d a b :
  count_char d (a +:+ b) = count_char d a + count_char d b.
Proof.
  induction a as [|x a IH]; [done|].
  rewrite append_cons. cbn [count_char]. rewrite IH. lia.
Qed.






Lemma drop_chars_length k s : String.length (drop_chars k s) ≤ String.length s.
Proof.
  revert s. induction k as [|k IH]; intros [|x s]; cbn; try lia.
  specialize (IH s). lia.
Qed.

Lemma prefix_split p s :
  String.prefix p s = true → s = p +:+ drop_chars (String.length p) s.
Proof.
  revert s. induction p as [|x p IH]; intros s.
  - by destruct s.
  - destruct s as [|y s]; [done|]. cbn [String.prefix String.length drop_chars].
    destruct (ascii_dec x y) as [->|]; [|done].
    intros H. rewrite append_cons. f_equal. by apply IH.
Qed.

Section Replace.
Variables old new : string.

Lemma replace_from_skip k s :
  Py.replace_from old new k s = Py.replace old new (drop_chars k s).
Proof.
  unfold Py.replace. revert s. induction k as [|k IH]; intros s.
  - by destruct s.
  - destruct s as [|x s]; [done|]. apply IH.
Qed.

Lemma replace_cons x s :
  Py.replace old new (String x s) =
  if String.prefix old (String x s)
  then new +:+ Py.replace old new (drop_chars (String.length old - 1) s)
  else String x (Py.replace old new s).
Proof.
  unfold Py.replace at 1. cbn [Py.replace_from].
  by rewrite replace_from_skip.
Qed.

Lemma replace_absent s :
  Py.contains old s = false → Py.replace old new s = s.
Proof.
  induction s as [|x s IH]; [done|]. cbn [Py.contains].
  intros [Hp Hc]%orb_false_elim. rewrite replace_cons, Hp.
  by rewrite IH.
Qed.
End Replace.

(** Deleting the occurrences of [old] keeps every character that is not
    one of [old]'s. *)
Lemma count_replace_delete old d s :
  old ≠ EmptyString →
  count_char d old = 0 →
  count_char d (Py.replace old EmptyString s) = count_char d s.
Proof.
  intros Hold Hd. remember (String.length s) as n eqn:Hn.
  revert s Hn. induction (lt_wf n) as [n _ IH]. intros s ->.
  destruct s as [|x s]; [done|]. rewrite replace_cons.
  destruct (String.prefix old (String x s)) eqn:Hp.
  - destruct old as [|o old']; [done|]. cbn in Hp.
    destruct (ascii_dec o x) as [->|]; [|done].
    apply prefix_split in Hp. rewrite append_empty_l.
    cbn [String.length Nat.sub]. rewrite Nat.sub_0_r.
    rewrite (IH (String.length (drop_chars (String.length old') s)));
      [| pose proof (drop_chars_length (String.length old') s); cbn; lia
       | done ].
    rewrite Hp at 2. cbn in Hd. cbn. rewrite count_char_app. lia.
  - cbn. f_equal. apply (IH (String.length s)); [cbn; lia|done].
Qed.

Lemma count_replace_label d s :
  count_char d "I:" = 0 →
  count_char d (Py.replace "I:" "" s) = count_char d s.
Proof. by apply count_replace_delete. Qed.

Lemma contains_one_char_absent c s :
  count_char c s = 0 → Py.contains (String c EmptyString) s = false.
Proof.
  induction s as [|a s IH]; [done|]. cbn [count_char Py.contains].
  rewrite prefix_one_char. destruct (Ascii.eqb a c); [done|].
  intros H. by rewrite IH.
Qed.

(** ** The row of a data line *)

Lemma parse_lines_seen_header st pre :
  existsb is_header_line pre = true → skip (parse_lines st pre) = false.
Proof.
  revert st. induction pre as [|l pre IH]; intros st; [done|].
  cbn [existsb]. change (parse_lines st (l :: pre))
    with (parse_lines (parse_line st l) pre).
  destruct (is_header_line l) eqn:Hl.
  - intros _. destruct (parse_line_header st l Hl) as [Hs _].
    by destruct (parse_lines_active _ pre Hs).
  - apply IH.
Qed.

Lemma data_line_row data pre line post :
  data_line_at data pre line post →
  fields line ≠ [] →
  parse_data data = rows_so_far pre ++ data_row line :: flat_map line_rows post.
Proof.
  intros (Hsplit & Hpre & Hline) Hne. unfold parse_data, rows_so_far.
  rewrite Hsplit, parse_lines_app.
  pose proof (parse_lines_seen_header parse_init pre Hpre) as Hs.
  destruct (parse_lines_active _ (line :: post) Hs) as [_ ->].
  f_equal. cbn [flat_map]. unfold line_rows at 1. rewrite Hline.
  by destruct (fields line).
Qed.






(** ** What happens to the fields of a data line *)




(** ** The row label *)

(** C6, as the code has it: in a data row only the first field goes through
    [replace("I:", "")], which deletes the occurrences of ["I:"] wherever
    they stand in that field; the other fields only lose their spaces.  The
    result is the field without its ["I:"] prefix whenever no ["I:"] is
    left behind the prefix, as for ["I:42"], which gives ["42"]. *)
Theorem first_field_label_removed data pre line post first rest :
  data_line_at data pre line post →
  fields line = first :: rest →
  parse_data data =
    rows_so_far pre ++
    (Py.replace "I:" "" (remove_char space first)
       :: map (remove_char space) rest)
    :: flat_map line_rows post ∧
  (Py.contains "I:" (removeprefix "I:" (remove_char space first)) = false →
   Py.replace "I:" "" (remove_char space first) =
     removeprefix "I:" (remove_char space first)) ∧
  (first = "I:42" → Py.replace "I:" "" (remove_char space first) = "42").
Proof.
  intros Hat Hf. split; [|split].
  - rewrite (data_line_row _ _ _ _ Hat) by by rewrite Hf.
    unfold data_row, header_row. by rewrite Hf.
  - generalize (remove_char space first). intros f. unfold removeprefix.
    destruct (String.prefix "I:" f) eqn:Hp; [|apply replace_absent].
    destruct f as [|a f]; [done|]. rewrite replace_cons, Hp, append_empty_l.
    apply replace_absent.
  - by intros ->.
Qed.

Lemma first_field_label_removed_witness :
  parse_data ("ITER | V |" +:+ newline +:+ "I:42 | 7 |") =
    rows_so_far ["ITER | V |"] ++ ["42"; "7"] :: flat_map line_rows [].
Proof.
  apply (first_field_label_removed _ ["ITER | V |"] "I:42 | 7 |" [] "I:42 " [" 7 "]).
  - repeat split; reflexivity.
  - reflexivity.
Defined.

(** C6, as the specification states it, fails: in the first field ["xI:42"]
    the text ["I:"] is no prefix, and is removed all the same. *)
Lemma label_removed_inside_field :
  ¬ strips_label_prefix ("ITER | V |" +:+ newline +:+ "xI:42 | 7 |").
Proof.
  intros H.
  specialize (H ["ITER | V |"] "xI:42 | 7 |" [] "xI:42 " [" 7 "]).
  discriminate H.
  - repeat split; reflexivity.
  - reflexivity.
Qed.

(** ** No space in any field *)



(** ** Splitting a text into its lines *)

Lemma append_empty_r s : s +:+ EmptyString = s.
Proof.
  induction s as [|x s IH]; [done|]. by rewrite append_cons, IH.
Qed.

Lemma append_assoc a b c : (a +:+ b) +:+ c = a +:+ b +:+ c.
Proof.
  induction a as [|x a IH]; [done|]. by rewrite !append_cons, IH.
Qed.

Lemma single_line_cons a l :
  single_line (String a l) →
  Ascii.eqb a (ascii_of_nat 10) = false ∧ single_line l.
Proof.
  unfold single_line, newline. cbn [Py.contains].
  rewrite prefix_one_char. by intros [? ?]%orb_false_elim.
Qed.

Lemma split_line l : single_line l → Py.split newline l = [l].
Proof.
  induction l as [|a l IH]; [done|].
  intros [Ha Hl]%single_line_cons. unfold newline in *.
  by rewrite split_one_char, Ha, IH.
Qed.

Lemma split_line_app l t :
  single_line l →
  Py.split newline (l +:+ newline +:+ t) = l :: Py.split newline t.
Proof.
  induction l as [|a l IH].
  - intros _. rewrite append_empty_l. unfold newline.
    rewrite append_cons, append_empty_l, split_one_char.
    by rewrite Ascii.eqb_refl.
  - intros [Ha Hl]%single_line_cons. rewrite append_cons.
    unfold newline in *. by rewrite split_one_char, Ha, IH.
Qed.

Lemma split_join d_lines :
  d_lines ≠ [] → Forall single_line d_lines →
  Py.split newline (Py.join newline d_lines) = d_lines ∧
  Py.split newline (Py.join newline d_lines +:+ newline) =
    d_lines ++ [EmptyString].
Proof.
  intros Hne Hall. induction Hall as [|l rest Hl Hrest IH]; [done|].
  destruct rest as [|l' rest'].
  - cbn [Py.join]. split; [by apply split_line|].
    rewrite <- (append_empty_r newline) at 2.
    by rewrite split_line_app.
  - destruct IH as [IH1 IH2]; [done|].
    change (Py.join newline (l :: l' :: rest'))
      with (l +:+ newline +:+ Py.join newline (l' :: rest')).
    split.
    + by rewrite split_line_app, IH1.
    + by rewrite !append_assoc, split_line_app, IH2.
Qed.

(** A line that ends with the delimiter has the pieces of its body as
    fields, and so at least one. *)
Lemma split_trailing_delimiter c body :
  Py.split (String c EmptyString) (body +:+ String c EmptyString) =
  Py.split (String c EmptyString) body ++ [EmptyString].
Proof.
  induction body as [|a body IH].
  - rewrite append_empty_l, split_one_char. by rewrite Ascii.eqb_refl.
  - rewrite append_cons, !split_one_char, IH.
    destruct (Ascii.eqb a c); [done|].
    pose proof (split_nonempty (String c EmptyString) body) as Hne.
    by destruct (Py.split (String c EmptyString) body).
Qed.

Lemma well_formed_fields line : well_formed_line line → fields line ≠ [].
Proof.
  intros [body ->]. unfold fields, Py.drop_last.
  rewrite split_trailing_delimiter, removelast_last.
  apply split_nonempty.
Qed.

Lemma line_rows_single line :
  fields line ≠ [] →
  ∃ row, line_rows line = [row] ∧ length row = length (fields line).
Proof.
  intros Hne. unfold line_rows. destruct (is_header_line line).
  - exists (header_row line). by rewrite header_row_length.
  - exists (data_row line). rewrite data_row_length.
    by destruct (fields line).
Qed.

Lemma line_rows_empty_line : line_rows EmptyString = [].
Proof. reflexivity. Qed.

Lemma flat_map_line_rows_shape n d_lines :
  Forall (λ l, fields l ≠ [] ∧ length (fields l) = n) d_lines →
  length (flat_map line_rows d_lines) = length d_lines ∧
  Forall (λ row, length row = n) (flat_map line_rows d_lines).
Proof.
  induction 1 as [|l rest [Hne Hlen] _ [IH1 IH2]]; [done|].
  destruct (line_rows_single l Hne) as (row & Hrow & Hr).
  cbn [flat_map]. rewrite Hrow. cbn. split; [by rewrite IH1|].
  constructor; [congruence|done].
Qed.

(** ** The shape of a well-formed table *)

(** C5: for a text made of a header line with the marker and N data lines,
    every line carrying the trailing delimiter of the format and every data
    line having as many fields as the header, with or without a final
    newline, [parse_data] returns N+1 rows, the header row first, each with
    the field count of the header. *)
Theorem well_formed_table_shape h ls trail :
  Py.contains "ITER" h = true →
  Forall single_line (h :: ls) →
  Forall well_formed_line (h :: ls) →
  Forall (λ l, length (fields l) = length (fields h)) ls →
  trail = EmptyString ∨ trail = newline →
  length (parse_data (Py.join newline (h :: ls) +:+ trail)) = S (length ls) ∧
  Forall (λ row, length row = length (fields h))
    (parse_data (Py.join newline (h :: ls) +:+ trail)) ∧
  head (parse_data (Py.join newline (h :: ls) +:+ trail)) =
    Some (map (remove_char space) (fields h)).
Proof.
  intros Hh Hsingle Hwf Hcount Htrail.
  assert (∃ tl, Py.split newline (Py.join newline (h :: ls) +:+ trail)
                = h :: ls ++ tl ∧ flat_map line_rows tl = []) as (tl & Hs & Htl).
  { destruct (split_join (h :: ls)) as [H1 H2]; [done|done|].
    destruct Htrail as [->| ->].
    - exists []. by rewrite append_empty_r, H1, app_nil_r.
    - exists [EmptyString]. by rewrite H2. }
  assert (parse_data (Py.join newline (h :: ls) +:+ trail)
          = header_row h :: flat_map line_rows ls) as ->.
  { rewrite parse_data_rows, Hs. unfold drop_preamble, is_header_line.
    rewrite Hh. cbn [flat_map]. unfold line_rows at 1, is_header_line.
    by rewrite Hh, flat_map_app, Htl, app_nil_r. }
  destruct (flat_map_line_rows_shape (length (fields h)) ls) as [Hn Hrows].
  { apply Forall_forall. intros l Hl. split.
    - apply well_formed_fields.
      apply (proj1 (Forall_forall _ _) Hwf). by right.
    - by apply (proj1 (Forall_forall _ _) Hcount). }
  cbn [length head]. split; [by rewrite Hn|]. split; [|done].
  constructor; [apply header_row_length|done].
Qed.

Lemma well_formed_table_shape_witness :
  length (parse_data (Py.join newline
            ["N | ITER | VAL |"; "I:0 | 1 | 10 |"; "I:1 | 2 | 20 |"]
          +:+ newline)) = 3 ∧
  Forall (λ row, length row = length (fields "N | ITER | VAL |"))
    (parse_data (Py.join newline
            ["N | ITER | VAL |"; "I:0 | 1 | 10 |"; "I:1 | 2 | 20 |"]
          +:+ newline)) ∧
  head (parse_data (Py.join newline
            ["N | ITER | VAL |"; "I:0 | 1 | 10 |"; "I:1 | 2 | 20 |"]
          +:+ newline)) =
    Some (map (remove_char space) (fields "N | ITER | VAL |")).
Proof.
  apply (well_formed_table_shape "N | ITER | VAL |"
           ["I:0 | 1 | 10 |"; "I:1 | 2 | 20 |"] newline).
  - reflexivity.
  - repeat constructor.
  - repeat constructor;
      [by exists "N | ITER | VAL " | by exists "I:0 | 1 | 10 "
      | by exists "I:1 | 2 | 20 "].
  - repeat constructor.
  - by right.
Defined.

(** Outside the format: a header line and a data line that both lack the
    delimiter have zero fields each, and the data line leaves no row. *)
Lemma zero_field_table_shape :
  parse_data (Py.join newline ["ITER"; "x"]) = [[]].
Proof. reflexivity. Qed.

(** ** The JSON exporter *)

Lemma row_of_json_of_row row : row_of_json (json_of_row row) = Some row.
Proof.
  unfold row_of_json, json_of_row.
  induction row as [|x row IH]; [done|]. cbn. by rewrite IH.
Qed.

Lemma table_of_json_of_table t : table_of_json (json_of_table t) = Some t.
Proof.
  unfold table_of_json, json_of_table.
  induction t as [|row t IH]; [done|].
  cbn [map mapM]. by rewrite row_of_json_of_row, IH.
Qed.

(** What is read back from the written file is the table bound to the
    module-level name, whatever table was passed. *)
Lemma save_json_writes_global g result_folder data filename fs :
  json_load ((result_folder +:+ "/json/") +:+ filename +:+ ".json")
    (fst (save_json g result_folder data filename fs)) = g.
Proof.
  unfold save_json, json_load, write_file. destruct g as [t|]; cbn.
  - by rewrite lookup_insert_eq, table_of_json_of_table.
  - by rewrite lookup_insert_eq.
Qed.

(** In the sweep of the script the name is bound to the very table that is
    passed, and there the table is read back. *)
Lemma save_json_round_trip_in_sweep result_folder data filename fs :
  json_load ((result_folder +:+ "/json/") +:+ filename +:+ ".json")
    (fst (save_json (Some data) result_folder data filename fs)) = Some data ∧
  snd (save_json (Some data) result_folder data filename fs) = Returned.
Proof. split; [apply save_json_writes_global|done]. Qed.

(** C1 fails on the code: [save_json] does not use its [data] argument.
    Called with the table [[["B"]]] while the module-level [parsed_data] is
    [[["A"]]], it writes [[["A"]]]; called while that name is unbound, it
    raises [NameError] and leaves an empty file. *)
Theorem save_json_ignores_its_table :
  json_load "r/json/f.json"
    (fst (save_json (Some [["A"]]) "r" [["B"]] "f" empty_fs)) = Some [["A"]] ∧
  snd (save_json None "r" [["B"]] "f" empty_fs) = Raised NameError ∧
  files (fst (save_json None "r" [["B"]] "f" empty_fs)) !! "r/json/f.json"
    = Some EmptyFile.
Proof.
  split; [apply (save_json_writes_global (Some [["A"]]) "r")|].
  split; [done|]. apply lookup_insert_eq.
Qed.

(** ** The spreadsheet exporter *)















Example save_xlsx_first_cell :
  xlsx_cell "r/xlsx/f.xlsx" "A1"
    (fst (save_xlsx "r" [["a"]; ["b"; "c"]; ["d"; "e"]] "f" empty_fs))
    = Some "a".
Proof. reflexivity. Qed.

(** * Further properties of the parser *)

Section OneCharacterSplit.
Variable c : ascii.
Let sep : string := String c EmptyString.

Lemma push_char_length a pieces :
  pieces ≠ [] → length (Py.push_char a pieces) = length pieces.
Proof. by destruct pieces. Qed.

Lemma split_length s : length (Py.split sep s) = S (count_char c s).
Proof.
  subst sep. induction s as [|a s IH]; [done|].
  rewrite split_one_char. cbn [count_char].
  destruct (Ascii.eqb a c); cbn [length]; [by rewrite IH|].
  rewrite push_char_length by apply split_nonempty. by rewrite IH.
Qed.

Lemma split_absent s : count_char c s = 0 → Py.split sep s = [s].
Proof.
  subst sep. induction s as [|a s IH]; [done|].
  rewrite split_one_char. cbn [count_char].
  destruct (Ascii.eqb a c); [done|]. intros H. by rewrite IH.
Qed.

Lemma split_app a b :
  Py.split sep (a +:+ sep +:+ b) = Py.split sep a ++ Py.split sep b.
Proof.
  subst sep. induction a as [|x a IH].
  - rewrite append_empty_l, append_cons, append_empty_l, split_one_char.
    by rewrite Ascii.eqb_refl.
  - rewrite append_cons, !split_one_char, IH.
    destruct (Ascii.eqb x c); [done|].
    pose proof (split_nonempty (String c EmptyString) a) as Hne.
    by destruct (Py.split (String c EmptyString) a).
Qed.

(** A piece holds no separator, and of any other character at most as
    many as the whole string. *)
Lemma split_piece_count d s p :
  In p (Py.split sep s) →
  count_char c p = 0 ∧ count_char d p ≤ count_char d s.
Proof.
  subst sep. revert p. induction s as [|a s IH]; intros p.
  - intros [<-|[]]. done.
  - rewrite split_one_char. cbn [count_char].
    destruct (Ascii.eqb a c) eqn:Ha.
    + intros [<-|Hin]; [cbn; lia|]. destruct (IH p Hin). lia.
    + destruct (Py.split (String c EmptyString) s) as [|p0 ps]; cbn [Py.push_char].
      * intros [<-|[]]. cbn [count_char]. rewrite Ha. lia.
      * intros [<-|Hin].
        -- destruct (IH p0) as [H1 H2]; [by left|].
           cbn [count_char]. rewrite Ha. lia.
        -- destruct (IH p) as [H1 H2]; [by right|]. lia.
Qed.
End OneCharacterSplit.


Lemma in_removelast {A} (x : A) (l : list A) : In x (removelast l) → In x l.
Proof.
  induction l as [|y [|z l] IH]; [done..|].
  change (removelast (y :: z :: l)) with (y :: removelast (z :: l)).
  intros [->|H]; [by left|]. right. by apply IH.
Qed.


Lemma count_remove_le c d s :
  count_char d (remove_char c s) ≤ count_char d s.
Proof.
  induction s as [|x s IH]; [done|]. cbn [remove_char count_char].
  destruct (Ascii.eqb x c); cbn [count_char]; lia.
Qed.

(** Where a field of a row comes from. *)
Lemma row_field_origin line row f :
  In row (line_rows line) → In f row →
  ∃ raw, In raw (fields line) ∧
         ∀ d, count_char d "I:" = 0 → count_char d f ≤ count_char d raw.
Proof.
  intros Hrow Hf.
  destruct (line_rows_origin _ _ Hrow) as [[_ ->]|(_ & _ & ->)].
  - unfold header_row in Hf. apply in_map_iff in Hf as (raw & <- & Hraw).
    exists raw. split; [done|]. intros d _. apply count_remove_le.
  - unfold data_row, header_row in Hf.
    destruct (fields line) as [|raw0 raws]; [done|]. cbn [map] in Hf.
    destruct Hf as [<-|Hf].
    + exists raw0. split; [by left|]. intros d Hd.
      rewrite count_replace_label by done. apply count_remove_le.
    + apply in_map_iff in Hf as (raw & <- & Hraw).
      exists raw. split; [by right|]. intros d _. apply count_remove_le.
Qed.

Lemma drop_preamble_app pre rest :
  Forall (λ line, is_header_line line = false) pre →
  drop_preamble (pre ++ rest) = drop_preamble rest.
Proof.
  induction 1 as [|l pre Hl _ IH]; [done|].
  cbn [app drop_preamble]. by rewrite Hl.
Qed.




(** X1: the loop of [parse_data] computes the following table: the lines
    before the first line with the marker are dropped; from there on, in
    input order, a line with the marker gives its header row, a line
    without the marker and without fields gives nothing, and any other
    line gives its data row. *)
Theorem parse_data_line_by_line data :
  parse_data data =
    flat_map
      (λ line,
         if Py.contains "ITER" line then [map (remove_char space) (fields line)]
         else match map (remove_char space) (fields line) with
              | [] => []
              | first :: rest => [Py.replace "I:" "" first :: rest]
              end)
      (drop_preamble (Py.split newline data)).
Proof.
  rewrite parse_data_rows. apply flat_map_ext. intros line.
  unfold line_rows, is_header_line, data_row, header_row.
  destruct (Py.contains "ITER" line); [done|]. by destruct (fields line).
Qed.

(** X2: what the text holds before its first line with the marker has
    no effect on the result. *)
Theorem preamble_ignored pre rest :
  Forall single_line (pre ++ rest) →
  Forall (λ line, Py.contains "ITER" line = false) pre →
  parse_data (Py.join newline (pre ++ rest)) =
    parse_data (Py.join newline rest).
Proof.
  intros Hsingle Hpre. destruct rest as [|r rest].
  - rewrite app_nil_r in *. destruct pre as [|p pre]; [done|].
    rewrite parse_data_rows.
    destruct (split_join (p :: pre)) as [-> _]; [done..|].
    by rewrite (drop_preamble_no_header _ Hpre).
  - apply Forall_app in Hsingle as Hboth. destruct Hboth as [_ Hrest].
    rewrite !parse_data_rows.
    destruct (split_join (pre ++ r :: rest)) as [-> _];
      [by destruct pre|done|].
    destruct (split_join (r :: rest)) as [-> _]; [done..|].
    by rewrite drop_preamble_app.
Qed.

Lemma preamble_ignored_witness :
  parse_data (Py.join newline
                ["Solving..."; "n = 25"; "N | ITER |"; "I:0 | 1 |"]) =
  parse_data (Py.join newline ["N | ITER |"; "I:0 | 1 |"]).
Proof.
  apply (preamble_ignored ["Solving..."; "n = 25"]
           ["N | ITER |"; "I:0 | 1 |"]); repeat constructor.
Defined.

(** X3: the number of fields of a line is its number of delimiters, and
    what stands behind the last delimiter of a line is dropped: a line
    without a delimiter has no field, whatever it holds. *)
Theorem text_after_last_delimiter_dropped body tail :
  count_char "|" tail = 0 →
  fields (body +:+ "|" +:+ tail) = Py.split "|" body ∧
  length (fields (body +:+ "|" +:+ tail)) = S (count_char "|" body) ∧
  fields tail = [].
Proof.
  intros Htail. unfold fields, Py.drop_last.
  rewrite (split_app "|"), (split_absent "|" tail Htail), removelast_last.
  split; [done|]. split; [apply (split_length "|")|done].
Qed.

Lemma text_after_last_delimiter_dropped_witness :
  fields ("I:0 | 1 " +:+ "|" +:+ " 10") = Py.split "|" "I:0 | 1 " ∧
  length (fields ("I:0 | 1 " +:+ "|" +:+ " 10")) = S (count_char "|" "I:0 | 1 ") ∧
  fields " 10" = [].
Proof.
  apply (text_after_last_delimiter_dropped "I:0 | 1 " " 10"). reflexivity.
Defined.

(** X4: no field of a returned row contains the delimiter or a newline. *)
Theorem fields_have_no_delimiter data row f :
  In row (parse_data data) → In f row →
  Py.contains "|" f = false ∧ Py.contains newline f = false.
Proof.
  intros (line & Hline & Hrow)%parse_data_row_origin Hf.
  destruct (row_field_origin _ _ _ Hrow Hf) as (raw & Hraw & Hcount).
  apply in_removelast in Hraw.
  destruct (split_piece_count "|" (ascii_of_nat 10) _ _ Hraw) as [Hbar Hnl].
  destruct (split_piece_count (ascii_of_nat 10) "|" _ _ Hline) as [Hline_nl _].
  split; apply contains_one_char_absent.
  - specialize (Hcount "|"%char eq_refl). lia.
  - specialize (Hcount (ascii_of_nat 10) eq_refl). lia.
Qed.

Lemma fields_have_no_delimiter_witness :
  Py.contains "|" "10" = false ∧ Py.contains newline "10" = false.
Proof.
  apply (fields_have_no_delimiter example_text ["0"; "1"; "10"] "10").
  - right. by left.
  - right. right. by left.
Defined.


Lemma split_lines_app t1 t2 :
  Py.split newline (t1 +:+ newline +:+ t2) =
  Py.split newline t1 ++ Py.split newline t2.
Proof. apply (split_app (ascii_of_nat 10)). Qed.

(** X6: once a text holds a line with the marker, text added behind it
    on new lines only adds the rows of the added lines. *)
Theorem rows_of_added_lines t1 t2 :
  existsb (Py.contains "ITER") (Py.split newline t1) = true →
  parse_data (t1 +:+ newline +:+ t2) =
    parse_data t1 ++ flat_map line_rows (Py.split newline t2).
Proof.
  intros Hseen. unfold parse_data.
  rewrite split_lines_app, parse_lines_app.
  pose proof (parse_lines_seen_header parse_init _ Hseen) as Hskip.
  by destruct (parse_lines_active _ (Py.split newline t2) Hskip) as [_ ->].
Qed.

Lemma rows_of_added_lines_witness :
  parse_data (("pre" +:+ newline +:+ "N | ITER |") +:+ newline +:+
              ("I:0 | 1 |" +:+ newline +:+ newline +:+ "I:1 | 2 |")) =
  parse_data ("pre" +:+ newline +:+ "N | ITER |") ++
  flat_map line_rows
    (Py.split newline ("I:0 | 1 |" +:+ newline +:+ newline +:+ "I:1 | 2 |")).
Proof.
  apply (rows_of_added_lines ("pre" +:+ newline +:+ "N | ITER |")).
  reflexivity.
Defined.

(** * Further properties of the exporters *)




















(** * The sweep *)







Lemma save_xlsx_outcome result_folder data filename fs :
  snd (save_xlsx result_folder data filename fs) = Returned ↔
  is_Some (write_rows 0 data ∅).
Proof.
  unfold save_xlsx. destruct (write_rows 0 data ∅); cbn; split;
    first [done | by eexists | by intros [? ?]].
Qed.

Section SweepFacts.
Variable program : string → string.
Variable elapsed : nat → string.

Let step := Main.step program elapsed.
Let loop := Main.loop program elapsed.











End SweepFacts.





